(** * Minecraft Bedrock integration: the polling core of [MinecraftServer]

    A shallow embedding of [custom_components/minecraft_bedrock/__init__.py]:
    the attributes of a [MinecraftServer] object are a record, a coroutine of
    the class is a computation that threads the object, may raise a Python
    exception and leaves a trace of what it did to the outside world (calls to
    the SRV helper and to the mcstatus client, log records, dispatcher
    signals).  What the collaborators answer is an input of each cycle. *)

From Stdlib Require Import ZArith QArith Qround Bool List String Lia.
Import ListNotations.
Local Open Scope string_scope.
Local Open Scope Z_scope.
Local Open Scope list_scope.

(** ** Python exceptions *)

(** The exception classes that matter here.  [except OSError] catches
    [OSError] and its subclasses (socket timeouts, refused connections,
    name-resolution failures); the other classes are not caught by it. *)
Inductive exc_class : Type :=
| OSError
| ConnectionRefusedError
| SocketTimeout
| SocketGaierror
| NameError
| ValueError
| IndexError.

Definition issubclass_OSError (c : exc_class) : bool :=
  match c with
  | OSError | ConnectionRefusedError | SocketTimeout | SocketGaierror => true
  | NameError | ValueError | IndexError => false
  end.

Record exn : Type := mkExn { exc_type : exc_class; exc_msg : string }.

Inductive result (A : Type) : Type :=
| Returns (a : A)
| Raises (e : exn).
Arguments Returns {A} a.
Arguments Raises {A} e.

(** ** What the mcstatus client answers *)

Record BedrockStatusVersion : Type := mkVersion {
  brand : string;
  protocol : Z
}.

(** Floats are modelled by the rationals they denote. *)
Record BedrockStatusResponse : Type := mkResponse {
  resp_version : BedrockStatusVersion;
  resp_players_max : Z;
  resp_players_online : Z;
  resp_latency : Q;
  resp_motd : string;
  resp_map : option string
}.

(** The [mcstatus] client object: it keeps the address it was built with. *)
Record MCStatusBedrock : Type := mkClient {
  client_host : string;
  client_port : Z
}.

(** The dictionary [helpers.async_check_srv_record] returns for a valid
    SRV record ([CONF_HOST] and [CONF_PORT] entries). *)
Record srv_record : Type := mkSrv {
  srv_host : string;
  srv_port : Z
}.

(** [config_entry.data]. *)
Record ConfigType : Type := mkConfig {
  CONF_NAME : string;
  CONF_HOST : string;
  CONF_PORT : Z
}.

(** ** The observable trace *)

Inductive level : Type := DEBUG | INFO | WARNING.

Inductive value : Type :=
| VStr (s : string)
| VInt (z : Z)
| VExn (e : exn).

Inductive event : Type :=
| EvSrvLookup (h : string)
| EvStatus (client : MCStatusBedrock) (tries : Z)
| EvLog (lvl : level) (fmt : string) (args : list value)
| EvDispatch (signal : string).

(** ** Python's [round(x, ndigits)] on the rational a float denotes:
    to the nearest multiple of [10^-ndigits], ties to even. *)
Definition round_half_even (q : Q) : Z :=
  let f := Qfloor q in
  match Qcompare (q - inject_Z f) (1 # 2) with
  | Lt => f
  | Gt => f + 1
  | Eq => if Z.even f then f else f + 1
  end.

Definition py_round (x : Q) (ndigits : nat) : Q :=
  let scale := inject_Z (10 ^ Z.of_nat ndigits) in
  (inject_Z (round_half_even (x * scale)) / scale)%Q.

(** ** The [MinecraftServer] object *)

Module MinecraftServer.

(** The attributes [__init__] creates, under their Python names ([_hass] and
    [_stop_periodic_update] are handles of the platform and carry no data
    of the polling core). *)
Record t : Type := mkServer {
  unique_id : string;
  name : string;
  host : string;
  port : Z;
  online : bool;
  _last_status_request_failed : bool;
  srv_record_checked : bool;
  _mc_status : MCStatusBedrock;
  version : option string;
  protocol_version : option Z;
  latency_time : option Q;
  players_online : option Z;
  players_max : option Z;
  players_list : option (list string);
  motd : option string;
  map : option string;
  signal_name : string
}.

(** Attribute assignment [self.<attr> = v], one function per attribute the
    methods assign. *)
Definition set_host (v : string) (self : t) : t :=
  mkServer (unique_id self) (name self) v (port self) (online self)
    (_last_status_request_failed self) (srv_record_checked self)
    (_mc_status self) (version self) (protocol_version self)
    (latency_time self) (players_online self) (players_max self)
    (players_list self) (motd self) (map self) (signal_name self).

Definition set_port (v : Z) (self : t) : t :=
  mkServer (unique_id self) (name self) (host self) v (online self)
    (_last_status_request_failed self) (srv_record_checked self)
    (_mc_status self) (version self) (protocol_version self)
    (latency_time self) (players_online self) (players_max self)
    (players_list self) (motd self) (map self) (signal_name self).

Definition set_online (v : bool) (self : t) : t :=
  mkServer (unique_id self) (name self) (host self) (port self) v
    (_last_status_request_failed self) (srv_record_checked self)
    (_mc_status self) (version self) (protocol_version self)
    (latency_time self) (players_online self) (players_max self)
    (players_list self) (motd self) (map self) (signal_name self).

Definition set_last_status_request_failed (v : bool) (self : t) : t :=
  mkServer (unique_id self) (name self) (host self) (port self)
    (online self) v (srv_record_checked self) (_mc_status self)
    (version self) (protocol_version self) (latency_time self)
    (players_online self) (players_max self) (players_list self) (motd self)
    (map self) (signal_name self).

Definition set_srv_record_checked (v : bool) (self : t) : t :=
  mkServer (unique_id self) (name self) (host self) (port self)
    (online self) (_last_status_request_failed self) v (_mc_status self)
    (version self) (protocol_version self) (latency_time self)
    (players_online self) (players_max self) (players_list self) (motd self)
    (map self) (signal_name self).

Definition set_version (v : option string) (self : t) : t :=
  mkServer (unique_id self) (name self) (host self) (port self)
    (online self) (_last_status_request_failed self)
    (srv_record_checked self) (_mc_status self) v (protocol_version self)
    (latency_time self) (players_online self) (players_max self)
    (players_list self) (motd self) (map self) (signal_name self).

Definition set_protocol_version (v : option Z) (self : t) : t :=
  mkServer (unique_id self) (name self) (host self) (port self)
    (online self) (_last_status_request_failed self)
    (srv_record_checked self) (_mc_status self) (version self) v
    (latency_time self) (players_online self) (players_max self)
    (players_list self) (motd self) (map self) (signal_name self).

Definition set_latency_time (v : option Q) (self : t) : t :=
  mkServer (unique_id self) (name self) (host self) (port self)
    (online self) (_last_status_request_failed self)
    (srv_record_checked self) (_mc_status self) (version self)
    (protocol_version self) v (players_online self) (players_max self)
    (players_list self) (motd self) (map self) (signal_name self).

Definition set_players_online (v : option Z) (self : t) : t :=
  mkServer (unique_id self) (name self) (host self) (port self)
    (online self) (_last_status_request_failed self)
    (srv_record_checked self) (_mc_status self) (version self)
    (protocol_version self) (latency_time self) v (players_max self)
    (players_list self) (motd self) (map self) (signal_name self).

Definition set_players_max (v : option Z) (self : t) : t :=
  mkServer (unique_id self) (name self) (host self) (port self)
    (online self) (_last_status_request_failed self)
    (srv_record_checked self) (_mc_status self) (version self)
    (protocol_version self) (latency_time self) (players_online self) v
    (players_list self) (motd self) (map self) (signal_name self).

Definition set_players_list (v : option (list string)) (self : t) : t :=
  mkServer (unique_id self) (name self) (host self) (port self)
    (online self) (_last_status_request_failed self)
    (srv_record_checked self) (_mc_status self) (version self)
    (protocol_version self) (latency_time self) (players_online self)
    (players_max self) v (motd self) (map self) (signal_name self).

Definition set_motd (v : option string) (self : t) : t :=
  mkServer (unique_id self) (name self) (host self) (port self)
    (online self) (_last_status_request_failed self)
    (srv_record_checked self) (_mc_status self) (version self)
    (protocol_version self) (latency_time self) (players_online self)
    (players_max self) (players_list self) v (map self) (signal_name self).

Definition set_map (v : option string) (self : t) : t :=
  mkServer (unique_id self) (name self) (host self) (port self)
    (online self) (_last_status_request_failed self)
    (srv_record_checked self) (_mc_status self) (version self)
    (protocol_version self) (latency_time self) (players_online self)
    (players_max self) (players_list self) (motd self) v (signal_name self).

(** [_MAX_RETRIES_STATUS = 3] *)
Definition _MAX_RETRIES_STATUS : Z := 3.

(** [__init__(self, hass, unique_id, config_data)].  [SIGNAL_NAME_PREFIX]
    comes from [const.py], which is outside this module: it is a
    parameter. *)
Definition __init__ (SIGNAL_NAME_PREFIX : string) (unique_id : string)
    (config_data : ConfigType) : t :=
  {| unique_id := unique_id;
     name := CONF_NAME config_data;
     host := CONF_HOST config_data;
     port := CONF_PORT config_data;
     online := false;
     _last_status_request_failed := false;
     srv_record_checked := false;
     _mc_status := mkClient (CONF_HOST config_data) (CONF_PORT config_data);
     version := None;
     protocol_version := None;
     latency_time := None;
     players_online := None;
     players_max := None;
     players_list := None;
     motd := None;
     map := None;
     signal_name := (SIGNAL_NAME_PREFIX ++ "_" ++ unique_id)%string |}.

(** *** Coroutines as computations

    A method body runs on the object, returns or raises, and appends to the
    trace.  Assignments made before an exception stay made. *)
Definition M (A : Type) : Type := t -> result A * t * list event.

Definition ret {A} (a : A) : M A := fun self => (Returns a, self, []).

Definition raise {A} (e : exn) : M A := fun self => (Raises e, self, []).

Definition bind {A B} (m : M A) (k : A -> M B) : M B :=
  fun self =>
    match m self with
    | (Returns a, self1, tr1) =>
        let '(r, self2, tr2) := k a self1 in (r, self2, tr1 ++ tr2)
    | (Raises e, self1, tr1) => (Raises e, self1, tr1)
    end.

Notation "x <- m ;; k" := (bind m (fun x => k))
  (at level 61, m at next level, right associativity).
Notation "m ;; k" := (bind m (fun _ => k))
  (at level 61, right associativity).

(** [self.<attr>] *)
Definition get {A} (attr : t -> A) : M A :=
  fun self => (Returns (attr self), self, []).

(** [self.<attr> = v], through one of the setters above. *)
Definition assign (upd : t -> t) : M unit :=
  fun self => (Returns tt, upd self, []).

Definition emit (ev : event) : M unit :=
  fun self => (Returns tt, self, [ev]).

(** [await <collaborator call>]: the call is recorded and answers what the
    cycle's input says. *)
Definition await {A} (call : event) (answer : result A) : M A :=
  fun self => (answer, self, [call]).

(** [_LOGGER.<level>(fmt, *args)] *)
Definition log (lvl : level) (fmt : string) (args : list value) : M unit :=
  emit (EvLog lvl fmt args).

(** [try: body except OSError as error: handler(error)] *)
Definition try_except_OSError {A} (body : M A) (handler : exn -> M A) : M A :=
  fun self =>
    match body self with
    | (Returns a, self1, tr1) => (Returns a, self1, tr1)
    | (Raises e, self1, tr1) =>
        if issubclass_OSError (exc_type e)
        then let '(r, self2, tr2) := handler e self1 in (r, self2, tr1 ++ tr2)
        else (Raises e, self1, tr1)
    end.

(** What the collaborators answer during one cycle: the SRV helper (asked
    only while [srv_record_checked] is false), the first call of
    [self._mc_status.status] (the connection check) and the second one (the
    status request, made only when the check succeeded). *)
Record cycle : Type := mkCycle {
  srv_answer : result (option srv_record);
  ping_answer : result BedrockStatusResponse;
  status_answer : result BedrockStatusResponse
}.

(** [async_check_connection].  Line 147 evaluates the name [MCStatus], which
    the module never binds (the import is [BedrockServer as
    MCStatusBedrock]): Python raises [NameError] there, after [host] and
    [port] were overwritten and before [_mc_status] is assigned. *)
Definition async_check_connection (c : cycle) : M unit :=
  checked <- get srv_record_checked ;;
  (if negb checked then
     assign (set_srv_record_checked true) ;;
     h <- get host ;;
     srv <- await (EvSrvLookup h) (srv_answer c) ;;
     match srv with
     | Some rec =>
         h <- get host ;;
         log DEBUG "'%s' is a valid Minecraft SRV record ('%s:%s')"
             [VStr h; VStr (srv_host rec); VInt (srv_port rec)] ;;
         assign (set_host (srv_host rec)) ;;
         assign (set_port (srv_port rec)) ;;
         raise (mkExn NameError "name 'MCStatus' is not defined")
     | None => ret tt
     end
   else ret tt) ;;
  try_except_OSError
    (client <- get _mc_status ;;
     _ <- await (EvStatus client _MAX_RETRIES_STATUS) (ping_answer c) ;;
     assign (set_online true))
    (fun error =>
       h <- get host ;;
       p <- get port ;;
       log DEBUG
           "Error occurred while trying to check the connection to '%s:%s' - OSError: %s"
           [VStr h; VInt p; VExn error] ;;
       assign (set_online false)).

(** [_async_status_request] *)
Definition _async_status_request (c : cycle) : M unit :=
  try_except_OSError
    (client <- get _mc_status ;;
     status_response <-
       await (EvStatus client _MAX_RETRIES_STATUS) (status_answer c) ;;
     assign (set_version (Some (brand (resp_version status_response)))) ;;
     assign (set_players_max (Some (resp_players_max status_response))) ;;
     assign (set_players_online (Some (resp_players_online status_response))) ;;
     assign (set_latency_time
               (Some (py_round (resp_latency status_response * 10000) 3))) ;;
     assign (set_motd (Some (resp_motd status_response))) ;;
     assign (set_map (resp_map status_response)) ;;
     assign (set_protocol_version
               (Some (protocol (resp_version status_response)))) ;;
     failed <- get _last_status_request_failed ;;
     (if failed then
        h <- get host ;;
        p <- get port ;;
        log INFO "Updating the properties of '%s:%s' succeeded again"
            [VStr h; VInt p]
      else ret tt) ;;
     assign (set_last_status_request_failed false))
    (fun error =>
       assign (set_version None) ;;
       assign (set_protocol_version None) ;;
       assign (set_players_online None) ;;
       assign (set_players_max None) ;;
       assign (set_latency_time None) ;;
       assign (set_players_list None) ;;
       assign (set_motd None) ;;
       assign (set_map None) ;;
       failed <- get _last_status_request_failed ;;
       (if negb failed then
          h <- get host ;;
          p <- get port ;;
          log WARNING "Updating the properties of '%s:%s' failed - OSError: %s"
              [VStr h; VInt p; VExn error]
        else ret tt) ;;
       assign (set_last_status_request_failed true)).

(** [async_update]: one update cycle. *)
Definition async_update (c : cycle) : M unit :=
  server_online_old <- get online ;;
  async_check_connection c ;;
  server_online <- get online ;;
  (if server_online_old && negb server_online then
     h <- get host ;;
     p <- get port ;;
     log WARNING "Connection to '%s:%s' lost" [VStr h; VInt p]
   else if negb server_online_old && server_online then
     h <- get host ;;
     p <- get port ;;
     log INFO "Connection to '%s:%s' (re-)established" [VStr h; VInt p]
   else ret tt) ;;
  (if server_online then _async_status_request c else ret tt) ;;
  signal <- get signal_name ;;
  emit (EvDispatch signal).

End MinecraftServer.

Import MinecraftServer.

(** ** Running cycles and reading the trace *)

(** The three components of what a computation leaves. *)
Definition outcome_of {A} (x : result A * t * list event) : result A :=
  fst (fst x).
Definition server_of {A} (x : result A * t * list event) : t :=
  snd (fst x).
Definition trace_of {A} (x : result A * t * list event) : list event :=
  snd x.

(** The timer calls [async_update] again and again on the same object; a
    cycle that raised leaves the object as it was at the raise. *)
Fixpoint run (cs : list cycle) (self : t)
  : list (result unit * t * list event) :=
  match cs with
  | [] => []
  | c :: cs' =>
      let x := async_update c self in x :: run cs' (server_of x)
  end.

Fixpoint server_after (cs : list cycle) (self : t) : t :=
  match cs with
  | [] => self
  | c :: cs' => server_after cs' (server_of (async_update c self))
  end.

(** The objects a monitor can be in: the freshly built one and whatever any
    number of cycles make of it. *)
Inductive reachable (self0 : t) : t -> Prop :=
| reachable_init : reachable self0 self0
| reachable_cycle (self : t) (c : cycle) :
    reachable self0 self ->
    reachable self0 (server_of (async_update c self)).

(** Signals sent through the dispatcher. *)
Fixpoint notifications (tr : list event) : list string :=
  match tr with
  | [] => []
  | EvDispatch signal :: tr' => signal :: notifications tr'
  | _ :: tr' => notifications tr'
  end.

(** Hosts the SRV helper was asked about. *)
Fixpoint srv_lookups (tr : list event) : list string :=
  match tr with
  | [] => []
  | EvSrvLookup h :: tr' => h :: srv_lookups tr'
  | _ :: tr' => srv_lookups tr'
  end.

(** Calls of [self._mc_status.status]. *)
Fixpoint status_calls (tr : list event) : list (MCStatusBedrock * Z) :=
  match tr with
  | [] => []
  | EvStatus client tries :: tr' => (client, tries) :: status_calls tr'
  | _ :: tr' => status_calls tr'
  end.

(** Log records of a given level, as (format, arguments). *)
Definition level_eqb (a b : level) : bool :=
  match a, b with
  | DEBUG, DEBUG | INFO, INFO | WARNING, WARNING => true
  | _, _ => false
  end.

Fixpoint logged (lvl : level) (tr : list event) : list (string * list value) :=
  match tr with
  | [] => []
  | EvLog l fmt args :: tr' =>
      if level_eqb l lvl then (fmt, args) :: logged lvl tr'
      else logged lvl tr'
  | _ :: tr' => logged lvl tr'
  end.

(** The records a user sees (the logger's [info] and [warning]), in order. *)
Fixpoint user_log (tr : list event) : list (level * string * list value) :=
  match tr with
  | [] => []
  | EvLog DEBUG _ _ :: tr' => user_log tr'
  | EvLog l fmt args :: tr' => (l, fmt, args) :: user_log tr'
  | _ :: tr' => user_log tr'
  end.

(** How many records carry a given level and format string. *)
Fixpoint count_log (lvl : level) (fmt : string) (tr : list event) : nat :=
  match tr with
  | [] => O
  | EvLog l f _ :: tr' =>
      if level_eqb l lvl && String.eqb f fmt
      then S (count_log lvl fmt tr') else count_log lvl fmt tr'
  | _ :: tr' => count_log lvl fmt tr'
  end.

Definition FMT_LOST : string := "Connection to '%s:%s' lost".
Definition FMT_ESTABLISHED : string :=
  "Connection to '%s:%s' (re-)established".
Definition FMT_UPDATE_FAILED : string :=
  "Updating the properties of '%s:%s' failed - OSError: %s".
Definition FMT_UPDATE_SUCCEEDED : string :=
  "Updating the properties of '%s:%s' succeeded again".

(** The metric attributes, as the sensors read them. *)
Definition metrics (self : t)
  : option string * option Z * option Q * option Z * option Z
    * option string * option string :=
  (version self, protocol_version self, latency_time self,
   players_online self, players_max self, motd self, map self).

Definition metrics_blank (self : t) : Prop :=
  version self = None /\ protocol_version self = None /\
  latency_time self = None /\ players_online self = None /\
  players_max self = None /\ motd self = None /\ map self = None.

Definition is_OSError (e : exn) : bool := issubclass_OSError (exc_type e).

(** Cycles in which the connection check succeeds and the status request
    then fails the way the code expects (an [OSError]), and cycles in which
    both succeed. *)
Definition fetch_fails (c : cycle) : bool :=
  match ping_answer c, status_answer c with
  | Returns _, Raises e => is_OSError e
  | _, _ => false
  end.

Definition fetch_succeeds (c : cycle) : bool :=
  match ping_answer c, status_answer c with
  | Returns _, Returns _ => true
  | _, _ => false
  end.

(** The connection check is reached when the SRV check is done already or
    the helper finds no record. *)
Definition probe_reached (c : cycle) (self : t) : Prop :=
  srv_record_checked self = true \/ srv_answer c = Returns None.

(** Everything a run did, in order. *)
Definition events (rs : list (result unit * t * list event)) : list event :=
  List.concat (List.map trace_of rs).

(** Per-cycle readings of a run. *)
Definition online_of (x : result unit * t * list event) : bool :=
  online (server_of x).
Definition failed_flag (x : result unit * t * list event) : bool :=
  _last_status_request_failed (server_of x).
Definition user_log_of (x : result unit * t * list event)
  : list (level * string * list value) :=
  user_log (trace_of x).
Definition failed_count (x : result unit * t * list event) : nat :=
  count_log WARNING FMT_UPDATE_FAILED (trace_of x).
Definition succeeded_count (x : result unit * t * list event) : nat :=
  count_log INFO FMT_UPDATE_SUCCEEDED (trace_of x).

(** What the specification asks the stored latency to be, when the client
    reports seconds: milliseconds, rounded like the code rounds. *)
Definition latency_ms_of_seconds (l : Q) : Q := py_round (l * 1000) 3.

(** ** A concrete monitor and concrete cycles *)

Definition example_config : ConfigType :=
  mkConfig "Bedrock" "mc.example.org" 19132.

Definition example_server : t :=
  __init__ "signal_minecraft_bedrock" "uid-1" example_config.

Definition example_response : BedrockStatusResponse :=
  mkResponse (mkVersion "MCPE" 431) 20 3 (1 # 8) "A Bedrock server"
    (Some "world").

Definition timed_out : exn := mkExn SocketTimeout "timed out".

Definition malformed_reply : exn :=
  mkExn ValueError "invalid literal for int() with base 10".

(** Server reachable, status request answered. *)
Definition cycle_up : cycle :=
  mkCycle (Returns None) (Returns example_response) (Returns example_response).

(** Server unreachable. *)
Definition cycle_down : cycle :=
  mkCycle (Returns None) (Raises timed_out) (Raises timed_out).

(** Connection check answered, status request not. *)
Definition cycle_half : cycle :=
  mkCycle (Returns None) (Returns example_response) (Raises timed_out).

(** The connection check gets a reply that the client cannot parse. *)
Definition cycle_malformed : cycle :=
  mkCycle (Returns None) (Raises malformed_reply) (Raises malformed_reply).

(** The host is a valid SRV record. *)
Definition cycle_srv_found : cycle :=
  mkCycle (Returns (Some (mkSrv "play.example.org" 19133)))
    (Returns example_response) (Returns example_response).

(** The scenario "down, down, up". *)
Definition recovery_cycles : list cycle := [cycle_down; cycle_down; cycle_up].

(** The monitor after one good cycle and one cycle without connection. *)
Definition stale_server : t :=
  server_after [cycle_up; cycle_down] example_server.

(** ** Config entries, the registry and the platform *)

(** The keys [CONF_NAME], [CONF_HOST] and [CONF_PORT] of
    [homeassistant.const], three different strings. *)
Inductive conf_key : Type := KEY_NAME | KEY_HOST | KEY_PORT.

(** [config_entry.data], a dict: what it holds under the three keys the
    integration reads, each present or not, and its other items. *)
Record EntryData : Type := mkData {
  data_name : option string;
  data_host : option string;
  data_port : option Z;
  data_rest : list (string * value)
}.

Record ConfigEntry : Type := mkEntry {
  entry_unique_id : string;
  entry_version : Z;
  entry_data : EntryData
}.

(** What the functions around the polling core can raise: a missing dict
    key, a call of [None], and whatever a cycle lets through. *)
Inductive error : Type :=
| KeyError_conf (k : conf_key)
| KeyError_domain
| KeyError_unique_id (uid : string)
| TypeError_NoneType_not_callable
| Uncaught (e : exn).

Inductive outcome (A : Type) : Type :=
| Done (a : A)
| Failed (e : error).
Arguments Done {A} a.
Arguments Failed {A} e.

(** A [MinecraftServer] object together with [_stop_periodic_update], the
    callable that [async_track_time_interval] returned, if any. *)
Record ServerObject : Type := mkObject {
  core : t;
  _stop_periodic_update : option nat
}.

(** [hass.data]: the dict under [DOMAIN], if there is one, from unique ids
    to server objects. *)
Record Hass : Type := mkHass {
  domain_data : option (string -> option ServerObject)
}.

Definition registry_set (uid : string) (o : ServerObject)
    (d : string -> option ServerObject) : string -> option ServerObject :=
  fun k => if String.eqb k uid then Some o else d k.

Definition registry_pop (uid : string)
    (d : string -> option ServerObject) : string -> option ServerObject :=
  fun k => if String.eqb k uid then None else d k.

(** [hass.data[DOMAIN].get(uid)], None also when the domain is absent. *)
Definition lookup (hass : Hass) (uid : string) : option ServerObject :=
  match domain_data hass with
  | Some d => d uid
  | None => None
  end.

(** What the platform sees of the functions below. *)
Inductive hass_event : Type :=
| HaCore (ev : event)
| HaTrackInterval (seconds : Z) (handle : nat)
| HaCancel (handle : nat)
| HaForwardSetup (platform : string)
| HaForwardUnload (platform : string).

Definition PLATFORMS : list string := ["binary_sensor"; "sensor"].

(** [start_periodic_update]: the platform hands back [handle]. *)
Definition start_periodic_update (SCAN_INTERVAL : Z) (handle : nat)
    (self : ServerObject) : ServerObject * list hass_event :=
  (mkObject (core self) (Some handle),
   [HaTrackInterval SCAN_INTERVAL handle]).

(** [stop_periodic_update]: calls [self._stop_periodic_update], which is
    [None] until [start_periodic_update] has run. *)
Definition stop_periodic_update (self : ServerObject)
  : outcome unit * list hass_event :=
  match _stop_periodic_update self with
  | Some handle => (Done tt, [HaCancel handle])
  | None => (Failed TypeError_NoneType_not_callable, [])
  end.

(** [config_entry.data[key]] for the three keys. *)
Definition to_config (data : EntryData) : outcome ConfigType :=
  match data_name data with
  | None => Failed (KeyError_conf KEY_NAME)
  | Some n =>
      match data_host data with
      | None => Failed (KeyError_conf KEY_HOST)
      | Some h =>
          match data_port data with
          | None => Failed (KeyError_conf KEY_PORT)
          | Some p => Done (mkConfig n h p)
          end
      end
  end.

(** [async_setup_entry].  [first] is what the collaborators answer during
    the first update, [handle] what [async_track_time_interval] returns.
    The dict under [DOMAIN] holds the server object itself, so it shows
    what the first update did to it, also when that update raises. *)
Definition async_setup_entry (SIGNAL_NAME_PREFIX : string)
    (SCAN_INTERVAL : Z) (first : cycle) (handle : nat)
    (hass : Hass) (config_entry : ConfigEntry)
  : outcome bool * Hass * list hass_event :=
  let domain :=
    match domain_data hass with
    | Some d => d
    | None => fun _ => None
    end in
  let unique_id := entry_unique_id config_entry in
  match data_name (entry_data config_entry) with
  | None => (Failed (KeyError_conf KEY_NAME), mkHass (Some domain), [])
  | Some n =>
  match data_host (entry_data config_entry) with
  | None => (Failed (KeyError_conf KEY_HOST), mkHass (Some domain), [])
  | Some h =>
      let created :=
        HaCore (EvLog DEBUG "Creating server instance for '%s' (%s)"
                  [VStr n; VStr h]) in
      match data_port (entry_data config_entry) with
      | None =>
          (Failed (KeyError_conf KEY_PORT), mkHass (Some domain), [created])
      | Some p =>
          let server := __init__ SIGNAL_NAME_PREFIX unique_id (mkConfig n h p) in
          let '(r, server1, tr) := async_update first server in
          let evs := created :: List.map HaCore tr in
          match r with
          | Raises e =>
              (Failed (Uncaught e),
               mkHass (Some (registry_set unique_id (mkObject server1 None)
                               domain)),
               evs)
          | Returns _ =>
              let '(object, started) :=
                start_periodic_update SCAN_INTERVAL handle
                  (mkObject server1 None) in
              (Done true,
               mkHass (Some (registry_set unique_id object domain)),
               evs ++ started ++ List.map HaForwardSetup PLATFORMS)
          end
      end
  end
  end.

(** [async_unload_entry].  What the platforms answer to the unload is
    gathered and dropped. *)
Definition async_unload_entry (hass : Hass) (config_entry : ConfigEntry)
  : outcome bool * Hass * list hass_event :=
  let unique_id := entry_unique_id config_entry in
  match domain_data hass with
  | None => (Failed KeyError_domain, hass, [])
  | Some domain =>
      match domain unique_id with
      | None => (Failed (KeyError_unique_id unique_id), hass, [])
      | Some server =>
          let unloaded := List.map HaForwardUnload PLATFORMS in
          match stop_periodic_update server with
          | (Failed e, evs) => (Failed e, hass, unloaded ++ evs)
          | (Done _, evs) =>
              (Done true,
               mkHass (Some (registry_pop unique_id domain)),
               unloaded ++ evs)
          end
      end
  end.

(** [async_migrate_entry]: the entry it leaves, what it returns or raises,
    and its log records. *)
Definition async_migrate_entry (config_entry : ConfigEntry)
  : outcome bool * ConfigEntry * list event :=
  let migrating :=
    EvLog DEBUG "Migrating from version %s"
      [VInt (entry_version config_entry)] in
  let successful (e : ConfigEntry) :=
    EvLog INFO "Migration to version %s successful"
      [VInt (entry_version e)] in
  if Z.eqb (entry_version config_entry) 1 then
    match to_config (entry_data config_entry) with
    | Failed e => (Failed e, config_entry, [migrating])
    | Done new =>
        let migrated :=
          mkEntry (entry_unique_id config_entry) 2
            (mkData (Some (CONF_NAME new)) (Some (CONF_HOST new))
               (Some (CONF_PORT new)) []) in
        (Done true, migrated, [migrating; successful migrated])
    end
  else (Done true, config_entry, [migrating; successful config_entry]).

(** ** Entities *)

(** [str(x)] inside an f-string, for an attribute that may be [None]. *)
Definition format_optional (v : option string) : string :=
  match v with
  | Some s => s
  | None => "None"
  end.

Record DeviceInfo : Type := mkDeviceInfo {
  identifiers : list (string * string);
  device_name : string;
  manufacturer : string;
  model : string;
  sw_version : option Z
}.

(** The attributes [MinecraftServerEntity.__init__] sets; [_server] is
    the server object, known by its unique id. *)
Record MinecraftServerEntity : Type := mkEntity {
  _server : string;
  _name : string;
  _icon : string;
  _unique_id : string;
  _device_info : DeviceInfo;
  _device_class : string;
  _disconnect_dispatcher : option nat
}.

(** [MinecraftServerEntity.__init__]; [DOMAIN] and [MANUFACTURER] come from
    [const.py] and are parameters. *)
Definition entity_init (DOMAIN MANUFACTURER : string) (server : t)
    (type_name icon device_class : string) : MinecraftServerEntity :=
  {| _server := unique_id server;
     _name := (name server ++ " " ++ type_name)%string;
     _icon := icon;
     _unique_id := (unique_id server ++ "-" ++ type_name)%string;
     _device_info :=
       {| identifiers := [(DOMAIN, unique_id server)];
          device_name := name server;
          manufacturer := MANUFACTURER;
          model :=
            ("Minecraft Server (" ++ format_optional (version server) ++ ")")%string;
          sw_version := protocol_version server |};
     _device_class := device_class;
     _disconnect_dispatcher := None |}.

(** ** More concrete inputs *)

Definition example_entry : ConfigEntry :=
  mkEntry "uid-1" 1
    (mkData (Some "Bedrock") (Some "mc.example.org") (Some 19132)
       [("scan_interval", VInt 60)]).

Definition example_entry_no_port : ConfigEntry :=
  mkEntry "uid-2" 1 (mkData (Some "Bedrock") (Some "mc.example.org") None []).

Definition empty_hass : Hass := mkHass None.


(** An entry holding the three keys of a configuration, and more. *)
Definition complete_entry (uid : string) (v : Z) (cfg : ConfigType)
    (rest : list (string * value)) : ConfigEntry :=
  mkEntry uid v
    (mkData (Some (CONF_NAME cfg)) (Some (CONF_HOST cfg))
       (Some (CONF_PORT cfg)) rest).

(** What a migration, a setup or an unload leaves. *)
Definition migration_of (x : outcome bool * ConfigEntry * list event)
  : ConfigEntry := snd (fst x).
Definition setup_outcome (x : outcome bool * Hass * list hass_event)
  : outcome bool := fst (fst x).
Definition hass_of (x : outcome bool * Hass * list hass_event) : Hass :=
  snd (fst x).
Definition platform_events (x : outcome bool * Hass * list hass_event)
  : list hass_event := snd x.

(** A setup that succeeds and one that meets an SRV record. *)
Definition example_setup : outcome bool * Hass * list hass_event :=
  async_setup_entry "signal_minecraft_bedrock" 60 cycle_up 7 empty_hass
    (complete_entry "uid-1" 2 example_config []).

Definition example_failed_setup : outcome bool * Hass * list hass_event :=
  async_setup_entry "signal_minecraft_bedrock" 60 cycle_srv_found 7
    empty_hass (complete_entry "uid-1" 2 example_config []).

(** ** One cycle, case by case *)

(** Symbolic execution of a method: unfold the computation and the
    attribute accesses, leave numbers and strings alone. *)
Ltac run_method :=
  cbv beta iota zeta delta
    [async_update async_check_connection _async_status_request
     try_except_OSError bind get assign log emit await raise ret
     set_host set_port set_online set_last_status_request_failed
     set_srv_record_checked set_version set_protocol_version
     set_latency_time set_players_online set_players_max set_players_list
     set_motd set_map
     unique_id name host port online _last_status_request_failed
     srv_record_checked _mc_status version protocol_version latency_time
     players_online players_max players_list motd map signal_name
     srv_answer ping_answer status_answer exc_type exc_msg
     fetch_fails fetch_succeeds is_OSError negb andb app
     outcome_of server_of trace_of fst snd metrics metrics_blank].

(** Case analysis on everything a cycle depends on: what the collaborators
    answer and the three flags of the object. *)
Ltac split_answers c :=
  destruct c as [[[?rec|]|?e_srv] [?r_ping|?e_ping] [?r_status|?e_status]].

Ltac split_server s :=
  let on := fresh "on" in
  let failed := fresh "failed" in
  let checked := fresh "checked" in
  destruct s as [? ? ? ? on failed checked ? ? ? ? ? ? ? ? ? ?];
  destruct checked, on, failed.

Ltac by_cases c s :=
  split_answers c; split_server s;
  repeat match goal with e : exn |- _ => destruct e as [? ?] end;
  run_method;
  repeat match goal with
         | |- context [issubclass_OSError ?cls] =>
             destruct (issubclass_OSError cls) eqn:?; run_method
         end.

(** The connection check never leaves [srv_record_checked] false, asks the
    SRV helper exactly when the flag was false, and touches [host] and
    [port] only then. *)
Lemma cycle_srv (c : cycle) (s : t) :
  let x := async_update c s in
  srv_record_checked (server_of x) = true /\
  srv_lookups (trace_of x) = (if srv_record_checked s then [] else [host s]) /\
  (srv_record_checked s = true ->
   host (server_of x) = host s /\ port (server_of x) = port s).
Proof.
  by_cases c s; repeat split; intros; try reflexivity; discriminate.
Qed.

(** The two connection messages are logged on the edges of [online] and
    nowhere else. *)
Lemma cycle_connection_log (c : cycle) (s : t) :
  let x := async_update c s in
  count_log WARNING FMT_LOST (trace_of x)
  = (if online s && negb (online (server_of x)) then 1 else 0)%nat /\
  count_log INFO FMT_ESTABLISHED (trace_of x)
  = (if negb (online s) && online (server_of x) then 1 else 0)%nat.
Proof.
  by_cases c s; split; reflexivity.
Qed.

(** A cycle that ends offline has not assigned any metric attribute. *)
Lemma cycle_offline_frame (c : cycle) (s : t) :
  let x := async_update c s in
  online (server_of x) = false ->
  metrics (server_of x) = metrics s /\
  players_list (server_of x) = players_list s.
Proof.
  by_cases c s; intros H; try discriminate H; split; reflexivity.
Qed.

(** [_last_status_request_failed] is only ever set together with the
    blanking of the metric attributes. *)
Lemma cycle_failed_blank (c : cycle) (s : t) :
  let x := async_update c s in
  (_last_status_request_failed s = true -> metrics_blank s) ->
  _last_status_request_failed (server_of x) = true ->
  metrics_blank (server_of x).
Proof.
  by_cases c s; intros Hs H; try discriminate H;
    try (apply Hs; reflexivity); repeat split.
Qed.



(** ** Runs *)


Lemma server_after_app (cs1 cs2 : list cycle) (s : t) :
  server_after (cs1 ++ cs2) s = server_after cs2 (server_after cs1 s).
Proof.
  revert s; induction cs1 as [|c cs1 IH]; intros s; simpl; auto.
Qed.

(** The [i]-th cycle of a run starts from the object the first [i] cycles
    left. *)
Lemma run_nth (cs : list cycle) (s : t) (i : nat) x :
  nth_error (run cs s) i = Some x ->
  exists c, nth_error cs i = Some c /\
            x = async_update c (server_after (firstn i cs) s).
Proof.
  revert s i; induction cs as [|c cs IH]; intros s i H.
  - destruct i; discriminate H.
  - destruct i as [|i]; simpl in *.
    + injection H as <-. now exists c.
    + apply IH in H. exact H.
Qed.

Lemma reachable_server_after (cs : list cycle) (s0 s : t) :
  reachable s0 s -> reachable s0 (server_after cs s).
Proof.
  revert s; induction cs as [|c cs IH]; intros s H; simpl.
  - exact H.
  - apply IH. now constructor.
Qed.

Lemma srv_lookups_app (tr1 tr2 : list event) :
  srv_lookups (tr1 ++ tr2) = srv_lookups tr1 ++ srv_lookups tr2.
Proof.
  induction tr1 as [|[ | | | ] tr1 IH]; simpl; auto.
  now rewrite IH.
Qed.

(** Once the SRV check is marked done, no cycle asks the helper, and
    [host], [port] and the client object stay as they are. *)
Lemma run_checked (cs : list cycle) (s : t) :
  srv_record_checked s = true ->
  srv_lookups (events (run cs s)) = [] /\
  srv_record_checked (server_after cs s) = true /\
  host (server_after cs s) = host s /\ port (server_after cs s) = port s.
Proof.
  revert s; induction cs as [|c cs IH]; intros s Hs; simpl.
  - auto.
  - destruct (cycle_srv c s) as (Hc & Hl & Hhp).
    destruct (Hhp Hs) as (Hh & Hp).
    destruct (IH _ Hc) as (IH1 & IH2 & IH3 & IH4).
    unfold events in *; simpl.
    rewrite srv_lookups_app, Hl, Hs, IH1, IH3, IH4. auto.
Qed.

Lemma status_calls_probe (c : cycle) (s : t) :
  let x := async_update c s in
  probe_reached c s ->
  hd_error (status_calls (trace_of x))
  = Some (_mc_status s, _MAX_RETRIES_STATUS).
Proof.
  unfold probe_reached.
  by_cases c s; intros [H|H]; try discriminate H; reflexivity.
Qed.

(** No cycle ever replaces the client object. *)
Lemma client_kept (c : cycle) (s : t) :
  _mc_status (server_of (async_update c s)) = _mc_status s.
Proof.
  by_cases c s; reflexivity.
Qed.

Lemma run_checked_probe (cs : list cycle) (s : t) :
  srv_record_checked s = true ->
  Forall (fun x => hd_error (status_calls (trace_of x))
                   = Some (_mc_status s, _MAX_RETRIES_STATUS))
    (run cs s).
Proof.
  revert s; induction cs as [|c cs IH]; intros s Hs; simpl; constructor.
  - apply status_calls_probe. now left.
  - destruct (cycle_srv c s) as (Hc & _).
    rewrite <- (client_kept c s). now apply IH.
Qed.



(** The stored latency is the client's figure times 10000, rounded to three
    decimals. *)
Lemma status_request_latency (c : cycle) (s : t) r :
  status_answer c = Returns r ->
  latency_time (server_of (_async_status_request c s))
  = Some (py_round (resp_latency r * 10000) 3).
Proof.
  destruct c as [sa pa sta]; simpl; intros ->.
  destruct s as [? ? ? ? ? [|] ? ? ? ? ? ? ? ? ? ? ?]; reflexivity.
Qed.

(** While [_last_status_request_failed] is set, the metric attributes are
    blank, in every object a fresh monitor can become. *)
Lemma failed_flag_blank (prefix uid : string) (cfg : ConfigType) (s : t) :
  reachable (__init__ prefix uid cfg) s ->
  _last_status_request_failed s = true -> metrics_blank s.
Proof.
  induction 1 as [|s c _ IH].
  - discriminate.
  - now apply cycle_failed_blank.
Qed.

(** A cycle that raises sends no signal. *)
Lemma no_notification_when_raising (c : cycle) (s : t) (e : exn) :
  outcome_of (async_update c s) = Raises e ->
  notifications (trace_of (async_update c s)) = [].
Proof.
  by_cases c s; intros H; try discriminate H; reflexivity.
Qed.

(** ** The properties of the specification *)

(** *** State blanking *)

(** C1, as the specification states it, fails: after one good cycle and
    one cycle without connection the monitor is offline and still holds
    the version, player count and the other values of the good cycle. *)
Lemma offline_metrics_not_blank :
  reachable example_server stale_server /\
  online stale_server = false /\
  version stale_server = Some "MCPE" /\
  players_online stale_server = Some 3 /\
  ~ metrics_blank stale_server.
Proof.
  split; [|split; [|split; [|split]]].
  - apply reachable_server_after. constructor.
  - reflexivity.
  - reflexivity.
  - reflexivity.
  - intros (H & _). discriminate H.
Qed.

(** C1 (amended).  A cycle that leaves the monitor offline assigns no
    metric attribute: version, protocol_version, latency_time,
    players_online, players_max, motd and map all keep the value they had
    before the cycle.  They are therefore None while offline only if they
    were None before. *)
Theorem offline_cycle_keeps_metrics (c : cycle) (s : t) :
  online (server_of (async_update c s)) = false ->
  metrics (server_of (async_update c s)) = metrics s /\
  (metrics_blank s -> metrics_blank (server_of (async_update c s))).
Proof.
  intros H. destruct (cycle_offline_frame c s H) as (Hm & _).
  split; [exact Hm|].
  unfold metrics in Hm. injection Hm as E1 E2 E3 E4 E5 E6 E7.
  unfold metrics_blank. rewrite E1, E2, E3, E4, E5, E6, E7. tauto.
Qed.

Lemma offline_cycle_keeps_metrics_witness :
  online (server_of (async_update cycle_down example_server)) = false /\
  metrics (server_of (async_update cycle_down example_server))
  = metrics example_server.
Proof.
  split; [reflexivity|].
  exact (proj1 (offline_cycle_keeps_metrics cycle_down example_server
                  eq_refl)).
Defined.

(** *** Failures of the status query *)

(** C2, as the specification states it, fails: a reply the client cannot
    parse surfaces as a ValueError, which is no OSError; it leaves the
    connection check, and the whole cycle, as an exception, and no signal
    is sent. *)
Lemma probe_lets_ValueError_escape :
  issubclass_OSError ValueError = false /\
  outcome_of (async_check_connection cycle_malformed example_server)
  = Raises malformed_reply /\
  outcome_of (async_update cycle_malformed example_server)
  = Raises malformed_reply /\
  notifications (trace_of (async_update cycle_malformed example_server)) = [].
Proof. repeat split. Qed.

(** C2 (amended).  When the status query raises during the connection check
    (which is reached when the SRV check is done or finds no record), an
    OSError is turned into online = false and the check returns normally;
    an exception of any other class leaves the check with online untouched.
    The status request treats the query's exceptions the same way: an
    OSError is absorbed, any other exception leaves it with the object
    untouched. *)
Theorem probe_failure_handling (c c' : cycle) (s s' : t) (e e' : exn) :
  probe_reached c s ->
  ping_answer c = Raises e ->
  status_answer c' = Raises e' ->
  let x := async_check_connection c s in
  let y := _async_status_request c' s' in
  (if is_OSError e
   then outcome_of x = Returns tt /\ online (server_of x) = false
   else outcome_of x = Raises e /\ online (server_of x) = online s) /\
  (if is_OSError e'
   then outcome_of y = Returns tt
   else outcome_of y = Raises e' /\ server_of y = s').
Proof.
  unfold probe_reached. intros Hsrv Hping Hstatus.
  destruct c as [sa pa sta], c' as [sa' pa' sta']; simpl in *; subst pa sta'.
  destruct e as [cls msg], e' as [cls' msg'].
  split.
  - destruct Hsrv as [Hc | ->].
    + destruct s; simpl in Hc; subst. run_method.
      destruct (issubclass_OSError cls); split; reflexivity.
    + destruct s as [? ? ? ? ? ? [|] ? ? ? ? ? ? ? ? ? ?]; run_method;
        destruct (issubclass_OSError cls); split; reflexivity.
  - destruct s' as [? ? ? ? ? [|] ? ? ? ? ? ? ? ? ? ? ?]; run_method;
      destruct (issubclass_OSError cls'); try split; reflexivity.
Qed.

Lemma probe_failure_handling_witness :
  probe_reached cycle_down example_server /\
  ping_answer cycle_down = Raises timed_out /\
  status_answer cycle_half = Raises timed_out /\
  outcome_of (async_check_connection cycle_down example_server) = Returns tt /\
  online (server_of (async_check_connection cycle_down example_server))
  = false.
Proof.
  split; [right; reflexivity|]. split; [reflexivity|]. split; [reflexivity|].
  exact (proj1 (probe_failure_handling cycle_down cycle_half example_server
                  example_server timed_out timed_out
                  (or_intror eq_refl) eq_refl eq_refl)).
Defined.

(** *** Debounced logging of the status request *)



(** *** The recovery scenario *)

(** C4, as the specification states it, fails: on a fresh monitor the first
    cycle without connection logs no warning (there was no connection to
    lose); the three cycles log nothing, nothing, and the info record. *)
Lemma recovery_scenario_no_warning :
  List.map (fun x => logged WARNING (trace_of x))
    (run recovery_cycles example_server) = [[]; []; []] /\
  List.map user_log_of (run recovery_cycles example_server)
  = [[]; [];
     [(INFO, FMT_ESTABLISHED, [VStr "mc.example.org"; VInt 19132])]] /\
  List.map online_of (run recovery_cycles example_server)
  = [false; false; true].
Proof. repeat split. Qed.

(** C4 (amended).  On a fresh monitor whose host is no SRV record, two
    cycles whose connection check fails with an OSError followed by a cycle
    whose check and status request both succeed log, at info or warning
    level, nothing, nothing, and the one info record that the connection is
    established; online is false, false, true. *)
Theorem recovery_scenario (prefix uid : string) (cfg : ConfigType)
    (e1 e2 : exn) (r r' : BedrockStatusResponse)
    (srv2 srv3 : result (option srv_record))
    (st1 st2 : result BedrockStatusResponse) :
  is_OSError e1 = true -> is_OSError e2 = true ->
  let cs := [mkCycle (Returns None) (Raises e1) st1;
             mkCycle srv2 (Raises e2) st2;
             mkCycle srv3 (Returns r) (Returns r')] in
  let rs := run cs (__init__ prefix uid cfg) in
  List.map user_log_of rs
  = [[]; [];
     [(INFO, FMT_ESTABLISHED, [VStr (CONF_HOST cfg); VInt (CONF_PORT cfg)])]]
  /\ List.map online_of rs = [false; false; true].
Proof.
  destruct e1 as [cls1 msg1], e2 as [cls2 msg2].
  unfold is_OSError; simpl. intros H1 H2.
  cbv zeta. unfold user_log_of, online_of.
  cbn [run List.map]. unfold __init__.
  run_method. rewrite H1. run_method. rewrite H2. run_method.
  split; reflexivity.
Qed.

Lemma recovery_scenario_witness :
  is_OSError timed_out = true /\
  List.map online_of (run recovery_cycles example_server)
  = [false; false; true].
Proof.
  split; [reflexivity|].
  exact (proj2 (recovery_scenario "signal_minecraft_bedrock" "uid-1"
                  example_config timed_out timed_out example_response
                  example_response (Returns None) (Returns None)
                  (Raises timed_out) (Raises timed_out) eq_refl eq_refl)).
Defined.

(** *** Connection messages *)

(** C5.  In any run, the cycle at any position logs the warning that the
    connection is lost exactly when [online] goes from true to false in
    that cycle, the info record that it is established exactly when
    [online] goes from false (also the initial false) to true, and neither
    when [online] ends the cycle as it began. *)
Theorem connection_events_on_edges (cs : list cycle) (s : t) (i : nat) x :
  nth_error (run cs s) i = Some x ->
  let before := online (server_after (firstn i cs) s) in
  let after := online (server_of x) in
  count_log WARNING FMT_LOST (trace_of x)
  = (if before && negb after then 1 else 0)%nat /\
  count_log INFO FMT_ESTABLISHED (trace_of x)
  = (if negb before && after then 1 else 0)%nat /\
  (after = before ->
   count_log WARNING FMT_LOST (trace_of x) = 0%nat /\
   count_log INFO FMT_ESTABLISHED (trace_of x) = 0%nat).
Proof.
  intros H. apply run_nth in H as (c & _ & ->).
  set (s1 := server_after (firstn i cs) s).
  destruct (cycle_connection_log c s1) as (Hl & He).
  cbv zeta in *. rewrite Hl, He.
  split; [reflexivity|split; [reflexivity|]].
  intros ->. now destruct (online s1).
Qed.

Lemma connection_events_on_edges_witness :
  nth_error (run [cycle_up; cycle_down; cycle_down] example_server) 1
  = Some (async_update cycle_down
            (server_of (async_update cycle_up example_server))) /\
  count_log WARNING FMT_LOST
    (trace_of (async_update cycle_down
                 (server_of (async_update cycle_up example_server))))
  = 1%nat.
Proof.
  split; [reflexivity|].
  exact (proj1 (connection_events_on_edges
                  [cycle_up; cycle_down; cycle_down] example_server 1 _
                  eq_refl)).
Defined.

(** *** A failing status request *)



(** *** Notification *)

(** C7.  Every update cycle that completes, that is returns without
    raising, sends the monitor's dispatcher signal exactly once, whatever
    the collaborators answered and whatever changed in the object. *)
Theorem one_notification_per_completed_cycle (c : cycle) (s : t) :
  outcome_of (async_update c s) = Returns tt ->
  notifications (trace_of (async_update c s)) = [signal_name s].
Proof.
  by_cases c s; intros H; try discriminate H; reflexivity.
Qed.

Lemma one_notification_per_completed_cycle_witness :
  outcome_of (async_update cycle_down example_server) = Returns tt /\
  notifications (trace_of (async_update cycle_down example_server))
  = [signal_name example_server].
Proof.
  split; [reflexivity|].
  apply (one_notification_per_completed_cycle cycle_down example_server).
  reflexivity.
Defined.

(** *** SRV resolution *)

(** C8.  Over any run of cycles on one object the SRV helper is asked at
    most once, whatever it and the status queries answer; and once the SRV
    check is marked done, no later cycle changes [host] or [port]. *)
Theorem srv_resolution_once (cs cs' : list cycle) (s : t) :
  (List.length (srv_lookups (events (run cs s))) <= 1)%nat /\
  (srv_record_checked (server_after cs s) = true ->
   host (server_after (cs ++ cs') s) = host (server_after cs s) /\
   port (server_after (cs ++ cs') s) = port (server_after cs s)).
Proof.
  split.
  - destruct cs as [|c cs]; [simpl; lia|].
    destruct (cycle_srv c s) as (Hc & Hl & _).
    destruct (run_checked cs _ Hc) as (Hr & _).
    unfold events in *. cbn [run List.map List.concat].
    rewrite srv_lookups_app, Hl, Hr, app_nil_r.
    destruct (srv_record_checked s); simpl; lia.
  - intros Hc. rewrite server_after_app.
    destruct (run_checked cs' _ Hc) as (_ & _ & Hh & Hp). now split.
Qed.

Lemma srv_resolution_once_witness :
  srv_record_checked (server_after [cycle_srv_found] example_server) = true /\
  host (server_after ([cycle_srv_found] ++ [cycle_up; cycle_down])
          example_server) = "play.example.org" /\
  port (server_after ([cycle_srv_found] ++ [cycle_up; cycle_down])
          example_server) = 19133.
Proof.
  split; [reflexivity|].
  exact (proj2 (srv_resolution_once [cycle_srv_found] [cycle_up; cycle_down]
                  example_server) eq_refl).
Defined.

(** *** Latency *)

(** C9.  The client reports a latency of 0.125 (seconds, 125 ms); after a
    successful status request the monitor holds 1250, which is neither the
    latency in milliseconds nor the reported figure itself. *)
Theorem latency_time_scaled_by_10000 :
  exists q,
    latency_time (server_of (async_update cycle_up example_server)) = Some q /\
    resp_latency example_response == 125 / 1000 /\
    q == 1250 /\
    ~ q == latency_ms_of_seconds (resp_latency example_response) /\
    ~ q == py_round (resp_latency example_response) 3.
Proof.
  eexists. split; [reflexivity|].
  split; [reflexivity|]. split; [reflexivity|].
  split; intros H; vm_compute in H; discriminate H.
Qed.

(** *** The SRV rewrite *)

(** C10.  On a fresh monitor, a cycle in which the SRV helper returns a
    record raises NameError at the rewrite of the client object: no status
    query is made, nothing is logged at info or warning level, no signal is
    sent, [online] is unchanged; [host] and [port] are already those of the
    record while the client object is still the one for the configured
    address.  When the helper returns None, that cycle and every later one
    reach the connection check. *)
Theorem srv_rewrite_raises_NameError (prefix uid : string) (cfg : ConfigType)
    (c : cycle) (cs : list cycle) :
  let s0 := __init__ prefix uid cfg in
  let x := async_update c s0 in
  (forall rec, srv_answer c = Returns (Some rec) ->
     outcome_of x = Raises (mkExn NameError "name 'MCStatus' is not defined") /\
     status_calls (trace_of x) = [] /\
     user_log (trace_of x) = [] /\
     notifications (trace_of x) = [] /\
     online (server_of x) = online s0 /\
     host (server_of x) = srv_host rec /\
     port (server_of x) = srv_port rec /\
     _mc_status (server_of x) = mkClient (CONF_HOST cfg) (CONF_PORT cfg)) /\
  (srv_answer c = Returns None ->
   Forall (fun y => hd_error (status_calls (trace_of y))
                    = Some (mkClient (CONF_HOST cfg) (CONF_PORT cfg), 3))
     (run (c :: cs) s0)).
Proof.
  cbv zeta. split.
  - intros rec H. destruct c as [sa pa sta]; simpl in H; subst sa.
    repeat split.
  - intros H. cbn [run]. constructor.
    + apply (status_calls_probe c (__init__ prefix uid cfg)). now right.
    + destruct (cycle_srv c (__init__ prefix uid cfg)) as (Hc & _).
      apply (run_checked_probe cs) in Hc.
      rewrite client_kept in Hc. exact Hc.
Qed.

Lemma srv_rewrite_raises_NameError_witness :
  srv_answer cycle_srv_found
  = Returns (Some (mkSrv "play.example.org" 19133)) /\
  outcome_of (async_update cycle_srv_found example_server)
  = Raises (mkExn NameError "name 'MCStatus' is not defined") /\
  srv_answer cycle_up = Returns None /\
  Forall (fun y => hd_error (status_calls (trace_of y))
                   = Some (mkClient "mc.example.org" 19132, 3))
    (run [cycle_up; cycle_down] example_server).
Proof.
  split; [reflexivity|]. split.
  - exact (proj1 (proj1 (srv_rewrite_raises_NameError
                           "signal_minecraft_bedrock" "uid-1" example_config
                           cycle_srv_found []) _ eq_refl)).
  - split; [reflexivity|].
    exact (proj2 (srv_rewrite_raises_NameError
                    "signal_minecraft_bedrock" "uid-1" example_config
                    cycle_up [cycle_down]) eq_refl).
Defined.

(** ** Further properties of the update cycle *)

(** The two messages of the status request are logged on the edges of
    [_last_status_request_failed]. *)
Lemma cycle_status_log (c : cycle) (s : t) :
  let x := async_update c s in
  failed_count x
  = (if negb (_last_status_request_failed s) && failed_flag x
     then 1 else 0)%nat /\
  succeeded_count x
  = (if _last_status_request_failed s && negb (failed_flag x)
     then 1 else 0)%nat.
Proof.
  unfold failed_count, succeeded_count, failed_flag.
  by_cases c s; split; reflexivity.
Qed.

(** What a cycle does to the attributes that identify the monitor. *)
Lemma cycle_identity (c : cycle) (s : t) :
  let x := async_update c s in
  unique_id (server_of x) = unique_id s /\
  name (server_of x) = name s /\
  signal_name (server_of x) = signal_name s /\
  (players_list s = None -> players_list (server_of x) = None).
Proof.
  by_cases c s; repeat split; auto.
Qed.

(** Every status query of a cycle goes through the client object the cycle
    started with, with three tries; there are at most two. *)
Lemma cycle_status_calls (c : cycle) (s : t) :
  let x := async_update c s in
  Forall (fun call => call = (_mc_status s, _MAX_RETRIES_STATUS))
    (status_calls (trace_of x)) /\
  (List.length (status_calls (trace_of x)) <= 2)%nat.
Proof.
  by_cases c s; split; repeat constructor.
Qed.

(** The signals a cycle sends are the monitor's own. *)
Lemma cycle_signals (c : cycle) (s : t) :
  Forall (fun signal => signal = signal_name s)
    (notifications (trace_of (async_update c s))).
Proof.
  by_cases c s; repeat constructor.
Qed.

Lemma status_calls_app (tr1 tr2 : list event) :
  status_calls (tr1 ++ tr2) = status_calls tr1 ++ status_calls tr2.
Proof.
  induction tr1 as [|[ | | | ] tr1 IH]; simpl; auto.
  now rewrite IH.
Qed.

Lemma notifications_app (tr1 tr2 : list event) :
  notifications (tr1 ++ tr2) = notifications tr1 ++ notifications tr2.
Proof.
  induction tr1 as [|[ | | | ] tr1 IH]; simpl; auto.
  now rewrite IH.
Qed.

(** A run never changes the monitor's identity or its client object. *)
Lemma run_identity (cs : list cycle) (s : t) :
  unique_id (server_after cs s) = unique_id s /\
  name (server_after cs s) = name s /\
  signal_name (server_after cs s) = signal_name s /\
  _mc_status (server_after cs s) = _mc_status s /\
  (players_list s = None -> players_list (server_after cs s) = None).
Proof.
  revert s; induction cs as [|c cs IH]; intros s; simpl.
  - auto.
  - destruct (cycle_identity c s) as (H1 & H2 & H3 & H4).
    destruct (IH (server_of (async_update c s))) as (I1 & I2 & I3 & I4 & I5).
    rewrite I1, I2, I3, I4, H1, H2, H3, client_kept.
    repeat split. intros Hp. apply I5, H4, Hp.
Qed.

Lemma prefix_injective (p a b : string) :
  (p ++ a)%string = (p ++ b)%string -> a = b.
Proof.
  induction p as [|ch p IH]; simpl; intros H.
  - exact H.
  - injection H as H. auto.
Qed.

Lemma run_status_calls (cs : list cycle) (s : t) :
  Forall (fun call => call = (_mc_status s, _MAX_RETRIES_STATUS))
    (status_calls (events (run cs s))).
Proof.
  revert s; induction cs as [|c cs IH]; intros s.
  - constructor.
  - unfold events. cbn [run List.map List.concat].
    rewrite status_calls_app. apply Forall_app. split.
    + apply cycle_status_calls.
    + rewrite <- (client_kept c s). apply IH.
Qed.

Lemma run_signals (cs : list cycle) (s : t) :
  Forall (fun signal => signal = signal_name s)
    (notifications (events (run cs s))).
Proof.
  revert s; induction cs as [|c cs IH]; intros s.
  - constructor.
  - unfold events. cbn [run List.map List.concat].
    rewrite notifications_app. apply Forall_app. split.
    + apply cycle_signals.
    + destruct (cycle_identity c s) as (_ & _ & <- & _). apply IH.
Qed.

(** X1.  In any run, the cycle at any position logs the warning that the
    status request failed exactly when [_last_status_request_failed] goes
    from false to true in that cycle, the info record that it succeeded
    again exactly when the flag goes from true to false, and neither when
    the flag ends the cycle as it began (cycles without a status request
    and cycles that raise included). *)
Theorem status_log_on_flag_edges (cs : list cycle) (s : t) (i : nat) x :
  nth_error (run cs s) i = Some x ->
  let before :=
    _last_status_request_failed (server_after (firstn i cs) s) in
  let after := failed_flag x in
  failed_count x = (if negb before && after then 1 else 0)%nat /\
  succeeded_count x = (if before && negb after then 1 else 0)%nat /\
  (after = before -> failed_count x = 0%nat /\ succeeded_count x = 0%nat).
Proof.
  intros H. apply run_nth in H as (c & _ & ->).
  set (s1 := server_after (firstn i cs) s).
  destruct (cycle_status_log c s1) as (Hf & Hs).
  cbv zeta in *. rewrite Hf, Hs.
  split; [reflexivity|split; [reflexivity|]].
  intros ->. now destruct (_last_status_request_failed s1).
Qed.

Lemma status_log_on_flag_edges_witness :
  nth_error (run [cycle_half; cycle_up] example_server) 1
  = Some (async_update cycle_up
            (server_of (async_update cycle_half example_server))) /\
  succeeded_count
    (async_update cycle_up
       (server_of (async_update cycle_half example_server))) = 1%nat.
Proof.
  split; [reflexivity|].
  exact (proj1 (proj2 (status_log_on_flag_edges
                         [cycle_half; cycle_up] example_server
                         1 _ eq_refl))).
Defined.

(** X2.  An update cycle returns normally exactly when the connection
    check is reached (the SRV check was done before, or the helper returns
    None) and every exception the status queries raise in it is an
    OSError. *)
Theorem cycle_completes_iff (c : cycle) (s : t) :
  outcome_of (async_update c s) = Returns tt <->
  probe_reached c s /\
  (forall e, ping_answer c = Raises e -> is_OSError e = true) /\
  (forall r e, ping_answer c = Returns r -> status_answer c = Raises e ->
               is_OSError e = true).
Proof.
  unfold probe_reached, is_OSError.
  destruct c as [sa pa sta]. cbn [srv_answer ping_answer status_answer].
  destruct s as [? ? ? ? on failed checked ? ? ? ? ? ? ? ? ? ?].
  cbn [srv_record_checked].
  split.
  - destruct checked; [|destruct sa as [[rec|]|e0]];
      (destruct pa as [r|[cls msg]];
       [destruct sta as [r'|[cls' msg']]|]);
      destruct on, failed; run_method;
      repeat match goal with
             | |- context [issubclass_OSError ?k] =>
                 destruct (issubclass_OSError k) eqn:?; run_method
             end;
      intros H; try discriminate H;
      (split; [auto|]);
      (split; [intros e1 He|intros r1 e1 Hr He; try discriminate Hr]);
      try discriminate He; injection He as <-; simpl; assumption.
  - intros ([Hc|Hs] & Hp & Hst); subst;
      (destruct pa as [r|[cls msg]];
       [destruct sta as [r'|[cls' msg']];
        [|specialize (Hst _ _ eq_refl eq_refl); cbn in Hst]
       |specialize (Hp _ eq_refl); cbn in Hp]);
      try destruct checked; destruct on, failed; run_method;
      rewrite ?Hst, ?Hp; reflexivity.
Qed.

Lemma cycle_completes_iff_witness :
  probe_reached cycle_half example_server /\
  outcome_of (async_update cycle_half example_server) = Returns tt.
Proof.
  assert (H : probe_reached cycle_half example_server) by (right; reflexivity).
  split; [exact H|].
  apply (proj2 (cycle_completes_iff cycle_half example_server)).
  split; [exact H|]. split.
  - intros e He. discriminate He.
  - intros r e _ He. injection He as <-. reflexivity.
Defined.

(** X4.  When the connection check is reached, [online] after the cycle
    is true if the first status query returned, false if it raised an
    OSError, and what it was before if it raised anything else. *)
Theorem online_reflects_probe (c : cycle) (s : t) :
  probe_reached c s ->
  online (server_of (async_update c s))
  = match ping_answer c with
    | Returns _ => true
    | Raises e => if is_OSError e then false else online s
    end.
Proof.
  unfold probe_reached.
  by_cases c s; intros [H|H]; try discriminate H; reflexivity.
Qed.

Lemma online_reflects_probe_witness :
  probe_reached cycle_malformed
    (server_of (async_update cycle_up example_server)) /\
  online (server_of (async_update cycle_malformed
                       (server_of (async_update cycle_up example_server))))
  = true.
Proof.
  assert (H : probe_reached cycle_malformed
                (server_of (async_update cycle_up example_server)))
    by (left; reflexivity).
  split; [exact H|].
  exact (online_reflects_probe cycle_malformed _ H).
Defined.



(** X6.  Over the whole life of a monitor every status query goes to the
    address of the config entry, with three tries, and no cycle makes more
    than two queries. *)
Theorem status_queries_use_configured_address (prefix uid : string)
    (cfg : ConfigType) (cs : list cycle) :
  let rs := run cs (__init__ prefix uid cfg) in
  Forall (fun call => call = (mkClient (CONF_HOST cfg) (CONF_PORT cfg), 3))
    (status_calls (events rs)) /\
  Forall (fun x => (List.length (status_calls (trace_of x)) <= 2)%nat) rs.
Proof.
  cbv zeta. split.
  - apply (run_status_calls cs (__init__ prefix uid cfg)).
  - generalize (__init__ prefix uid cfg). induction cs as [|c cs IH];
      intros s; simpl; constructor.
    + apply cycle_status_calls.
    + apply IH.
Qed.

(** X7.  When the SRV helper returns a record in the first cycle, [host]
    and [port] are those of the record after every later cycle, but every
    status query still goes to the configured address: the redirect is
    shown and never followed. *)
Theorem srv_redirect_never_queried (prefix uid : string) (cfg : ConfigType)
    (c : cycle) (cs : list cycle) (rec : srv_record) :
  srv_answer c = Returns (Some rec) ->
  let s0 := __init__ prefix uid cfg in
  host (server_after (c :: cs) s0) = srv_host rec /\
  port (server_after (c :: cs) s0) = srv_port rec /\
  Forall (fun call => call = (mkClient (CONF_HOST cfg) (CONF_PORT cfg), 3))
    (status_calls (events (run (c :: cs) s0))).
Proof.
  intros H. cbv zeta.
  split; [|split].
  - cbn [server_after].
    destruct (cycle_srv c (__init__ prefix uid cfg)) as (Hc & _).
    destruct (run_checked cs _ Hc) as (_ & _ & -> & _).
    destruct c as [sa pa sta]; simpl in H; subst sa. reflexivity.
  - cbn [server_after].
    destruct (cycle_srv c (__init__ prefix uid cfg)) as (Hc & _).
    destruct (run_checked cs _ Hc) as (_ & _ & _ & ->).
    destruct c as [sa pa sta]; simpl in H; subst sa. reflexivity.
  - apply (run_status_calls (c :: cs) (__init__ prefix uid cfg)).
Qed.

Lemma srv_redirect_never_queried_witness :
  srv_answer cycle_srv_found
  = Returns (Some (mkSrv "play.example.org" 19133)) /\
  host (server_after [cycle_srv_found; cycle_up] example_server)
  = "play.example.org" /\
  status_calls (events (run [cycle_srv_found; cycle_up] example_server))
  = [(mkClient "mc.example.org" 19132, 3);
     (mkClient "mc.example.org" 19132, 3)].
Proof.
  split; [reflexivity|].
  split; [|reflexivity].
  exact (proj1 (srv_redirect_never_queried "signal_minecraft_bedrock" "uid-1"
                  example_config cycle_srv_found [cycle_up] _ eq_refl)).
Defined.

(** X8.  No run of cycles changes [unique_id], [name], [signal_name] or
    the client object of a monitor, and [players_list] stays None. *)
Theorem monitor_identity_frozen (prefix uid : string) (cfg : ConfigType)
    (cs : list cycle) :
  let s := server_after cs (__init__ prefix uid cfg) in
  unique_id s = uid /\
  name s = CONF_NAME cfg /\
  signal_name s = (prefix ++ "_" ++ uid)%string /\
  _mc_status s = mkClient (CONF_HOST cfg) (CONF_PORT cfg) /\
  players_list s = None.
Proof.
  cbv zeta.
  destruct (run_identity cs (__init__ prefix uid cfg))
    as (H1 & H2 & H3 & H4 & H5).
  rewrite H1, H2, H3, H4, (H5 eq_refl). repeat split.
Qed.

(** X9.  Two monitors with different unique ids have different signal
    names, and no cycle of one ever sends the signal of the other. *)
Theorem no_signal_of_another_monitor (prefix uid1 uid2 : string)
    (cfg1 cfg2 : ConfigType) (cs : list cycle) :
  uid1 <> uid2 ->
  ~ In (signal_name (__init__ prefix uid2 cfg2))
      (notifications (events (run cs (__init__ prefix uid1 cfg1)))).
Proof.
  intros Hne Hin.
  pose proof (run_signals cs (__init__ prefix uid1 cfg1)) as Hall.
  rewrite Forall_forall in Hall. apply Hall in Hin.
  cbn [signal_name __init__] in Hin.
  apply prefix_injective in Hin.
  apply (prefix_injective "_") in Hin. congruence.
Qed.

Lemma no_signal_of_another_monitor_witness :
  "uid-1" <> "uid-2" /\
  ~ In (signal_name (__init__ "signal_minecraft_bedrock" "uid-2"
                       example_config))
      (notifications (events (run [cycle_up; cycle_down] example_server))).
Proof.
  assert (H : "uid-1" <> "uid-2") by discriminate.
  split; [exact H|].
  exact (no_signal_of_another_monitor "signal_minecraft_bedrock" "uid-1"
           "uid-2" example_config example_config [cycle_up; cycle_down] H).
Defined.

(** X10.  Whenever [_last_status_request_failed] is set on a monitor,
    after any run of cycles, every metric attribute and [players_list] are
    None. *)
Theorem blank_while_status_request_failed (prefix uid : string)
    (cfg : ConfigType) (cs : list cycle) :
  let s := server_after cs (__init__ prefix uid cfg) in
  _last_status_request_failed s = true ->
  metrics_blank s /\ players_list s = None.
Proof.
  cbv zeta. intros H. split.
  - apply (failed_flag_blank prefix uid cfg); [|exact H].
    apply reachable_server_after. constructor.
  - destruct (run_identity cs (__init__ prefix uid cfg))
      as (_ & _ & _ & _ & Hp).
    now apply Hp.
Qed.

Lemma blank_while_status_request_failed_witness :
  _last_status_request_failed
    (server_after [cycle_up; cycle_half] example_server) = true /\
  metrics_blank (server_after [cycle_up; cycle_half] example_server).
Proof.
  split; [reflexivity|].
  exact (proj1 (blank_while_status_request_failed
                  "signal_minecraft_bedrock" "uid-1" example_config
                  [cycle_up; cycle_half] eq_refl)).
Defined.

(** X3.  A cycle that raises sends no signal, and what it raises is one
    of: an exception of the SRV helper, the NameError of the SRV rewrite,
    or an exception of a status query that is no OSError. *)
Theorem escaped_exception_origin (c : cycle) (s : t) (e : exn) :
  outcome_of (async_update c s) = Raises e ->
  notifications (trace_of (async_update c s)) = [] /\
  ((srv_record_checked s = false /\ srv_answer c = Raises e) \/
   (srv_record_checked s = false /\
    (exists rec, srv_answer c = Returns (Some rec)) /\
    e = mkExn NameError "name 'MCStatus' is not defined") \/
   (ping_answer c = Raises e /\ is_OSError e = false) \/
   (status_answer c = Raises e /\ is_OSError e = false)).
Proof.
  unfold is_OSError.
  destruct c as [sa pa sta]. cbn [srv_answer ping_answer status_answer].
  destruct s as [? ? ? ? on failed checked ? ? ? ? ? ? ? ? ? ?].
  cbn [srv_record_checked].
  destruct checked; [|destruct sa as [[rec|]|e0]];
    (destruct pa as [r|[cls msg]];
     [destruct sta as [r'|[cls' msg']]|]);
    destruct on, failed; run_method;
    repeat match goal with
           | |- context [issubclass_OSError ?k] =>
               destruct (issubclass_OSError k) eqn:?; run_method
           end;
    intros H; try discriminate H; injection H as <-;
    (split; [reflexivity|]); try congruence;
    first [ left; split; reflexivity
          | right; left; split;
            [reflexivity|split; [eexists; reflexivity|reflexivity]]
          | right; right; left; split; [reflexivity|first [reflexivity|cbn [exc_type]; assumption]]
          | right; right; right; split; [reflexivity|first [reflexivity|cbn [exc_type]; assumption]] ].
Qed.

Lemma escaped_exception_origin_witness :
  outcome_of (async_update cycle_malformed example_server)
  = Raises malformed_reply /\
  notifications (trace_of (async_update cycle_malformed example_server)) = [].
Proof.
  split; [reflexivity|].
  exact (proj1 (escaped_exception_origin cycle_malformed example_server _
                  eq_refl)).
Defined.

(** ** Further properties: migration, setup and unload *)

(** X11.  A migration that returns keeps the entry's unique id and the
    name, host and port that setup reads; the entry is never left at
    version 1; a version 1 entry ends at version 2 holding only those three
    keys, and an entry of any other version is returned as it was. *)
Theorem migrate_preserves_config (e e' : ConfigEntry) (evs : list event) :
  async_migrate_entry e = (Done true, e', evs) ->
  entry_unique_id e' = entry_unique_id e /\
  to_config (entry_data e') = to_config (entry_data e) /\
  entry_version e' <> 1 /\
  (entry_version e = 1 ->
   entry_version e' = 2 /\ data_rest (entry_data e') = []) /\
  (entry_version e <> 1 -> e' = e).
Proof.
  unfold async_migrate_entry.
  destruct (Z.eqb_spec (entry_version e) 1) as [Hv|Hv].
  - destruct e as [uid v [[n|] [h|] [p|] rest]]; cbn;
      intros H; try discriminate H.
    injection H as <- _. cbn in *. subst v.
    split; [reflexivity|]. split; [reflexivity|].
    split; [discriminate|]. split; [auto|].
    intros Hne. now contradiction Hne.
  - intros H. injection H as <- _.
    split; [reflexivity|]. split; [reflexivity|].
    split; [exact Hv|]. split; [|reflexivity].
    intros Hv'. contradiction.
Qed.

Lemma migrate_preserves_config_witness :
  async_migrate_entry example_entry
  = (Done true,
     mkEntry "uid-1" 2
       (mkData (Some "Bedrock") (Some "mc.example.org") (Some 19132) []),
     [EvLog DEBUG "Migrating from version %s" [VInt 1];
      EvLog INFO "Migration to version %s successful" [VInt 2]]) /\
  to_config (mkData (Some "Bedrock") (Some "mc.example.org") (Some 19132) [])
  = to_config (entry_data example_entry).
Proof.
  split; [reflexivity|].
  exact (proj1 (proj2 (migrate_preserves_config example_entry _ _ eq_refl))).
Defined.

(** X12.  Migrating an entry that a migration returned changes nothing
    and succeeds. *)
Theorem migrate_idempotent (e e' : ConfigEntry) (evs : list event) :
  async_migrate_entry e = (Done true, e', evs) ->
  async_migrate_entry e'
  = (Done true, e',
     [EvLog DEBUG "Migrating from version %s" [VInt (entry_version e')];
      EvLog INFO "Migration to version %s successful"
        [VInt (entry_version e')]]).
Proof.
  intros H. apply migrate_preserves_config in H as (_ & _ & Hv & _).
  unfold async_migrate_entry.
  destruct (Z.eqb_spec (entry_version e') 1); [contradiction|reflexivity].
Qed.

Lemma migrate_idempotent_witness :
  async_migrate_entry example_entry
  = (Done true, migration_of (async_migrate_entry example_entry),
     [EvLog DEBUG "Migrating from version %s" [VInt 1];
      EvLog INFO "Migration to version %s successful" [VInt 2]]) /\
  migration_of
    (async_migrate_entry (migration_of (async_migrate_entry example_entry)))
  = migration_of (async_migrate_entry example_entry).
Proof.
  split; [reflexivity|].
  exact (f_equal migration_of
           (migrate_idempotent example_entry _ _ eq_refl)).
Defined.

(** X13.  A migration fails only on a version 1 entry that lacks one of
    the three keys: it raises the KeyError of the first missing key, leaves
    the entry as it was, and does not log success. *)
Theorem migrate_failure_leaves_entry (e : ConfigEntry) (err : error) :
  fst (fst (async_migrate_entry e)) = Failed err ->
  entry_version e = 1 /\
  to_config (entry_data e) = Failed err /\
  (exists k, err = KeyError_conf k) /\
  migration_of (async_migrate_entry e) = e /\
  logged INFO (snd (async_migrate_entry e)) = [].
Proof.
  unfold async_migrate_entry, migration_of.
  destruct (Z.eqb_spec (entry_version e) 1) as [Hv|Hv].
  - destruct e as [uid v [[n|] [h|] [p|] rest]]; cbn;
      intros H; try discriminate H; injection H as <-;
      (split; [exact Hv|]); (split; [reflexivity|]);
      (split; [eexists; reflexivity|]); split; reflexivity.
  - cbn. discriminate.
Qed.

Lemma migrate_failure_leaves_entry_witness :
  fst (fst (async_migrate_entry example_entry_no_port))
  = Failed (KeyError_conf KEY_PORT) /\
  migration_of (async_migrate_entry example_entry_no_port)
  = example_entry_no_port.
Proof.
  split; [reflexivity|].
  exact (proj1 (proj2 (proj2 (proj2
           (migrate_failure_leaves_entry example_entry_no_port _
              eq_refl))))).
Defined.

Lemma registry_set_same (uid : string) (o : ServerObject) d :
  registry_set uid o d uid = Some o.
Proof. unfold registry_set. now rewrite String.eqb_refl. Qed.

Lemma registry_pop_same (uid : string) d : registry_pop uid d uid = None.
Proof. unfold registry_pop. now rewrite String.eqb_refl. Qed.

Lemma lookup_set_same (uid : string) (o : ServerObject) d :
  lookup (mkHass (Some (registry_set uid o d))) uid = Some o.
Proof.
  unfold lookup, registry_set; cbn. now rewrite String.eqb_refl.
Qed.

Lemma lookup_set_other (uid k : string) (o : ServerObject) (hass : Hass) :
  k <> uid ->
  lookup (mkHass (Some (registry_set uid o
                          match domain_data hass with
                          | Some d => d
                          | None => fun _ => None
                          end))) k
  = lookup hass k.
Proof.
  intros H. unfold lookup, registry_set; cbn.
  apply String.eqb_neq in H. rewrite H.
  now destruct (domain_data hass).
Qed.

(** X14.  When the first update completes, setup returns True; the dict
    of the domain maps the entry's unique id to the server as that update
    left it, with the timer handle stored; other entries are untouched;
    and the platform sees, in this order, the creation log, the first
    cycle, the timer being armed and the two platform setups. *)
Theorem setup_registers_and_starts (prefix : string) (interval : Z)
    (first : cycle) (handle : nat) (hass : Hass) (uid : string) (v : Z)
    (cfg : ConfigType) (rest : list (string * value)) :
  outcome_of (async_update first (__init__ prefix uid cfg)) = Returns tt ->
  let x := async_setup_entry prefix interval first handle hass
             (complete_entry uid v cfg rest) in
  let cyc := async_update first (__init__ prefix uid cfg) in
  setup_outcome x = Done true /\
  lookup (hass_of x) uid = Some (mkObject (server_of cyc) (Some handle)) /\
  (forall k, k <> uid -> lookup (hass_of x) k = lookup hass k) /\
  platform_events x
  = HaCore (EvLog DEBUG "Creating server instance for '%s' (%s)"
              [VStr (CONF_NAME cfg); VStr (CONF_HOST cfg)])
    :: List.map HaCore (trace_of cyc)
    ++ [HaTrackInterval interval handle;
        HaForwardSetup "binary_sensor"; HaForwardSetup "sensor"].
Proof.
  intros Hc. cbv zeta.
  unfold async_setup_entry, complete_entry, setup_outcome, hass_of,
    platform_events.
  cbn [entry_data entry_unique_id data_name data_host data_port].
  destruct cfg as [n h p]. cbn [CONF_NAME CONF_HOST CONF_PORT].
  destruct (async_update first (__init__ prefix uid (mkConfig n h p)))
    as [[r s1] tr] eqn:E.
  unfold outcome_of in Hc. cbn in Hc. subst r.
  cbn [start_periodic_update fst snd server_of trace_of core].
  split; [reflexivity|]. split; [apply lookup_set_same|].
  split; [intros k Hk; now apply lookup_set_other|].
  reflexivity.
Qed.

(** X15.  When the first update raises, setup raises the same exception;
    the server stays in the dict of the domain, as the update left it and
    without a timer handle; no timer is armed and no platform is set
    up. *)
Theorem setup_failure_leaves_server_registered (prefix : string)
    (interval : Z) (first : cycle) (handle : nat) (hass : Hass)
    (uid : string) (v : Z) (cfg : ConfigType) (rest : list (string * value))
    (e : exn) :
  outcome_of (async_update first (__init__ prefix uid cfg)) = Raises e ->
  let x := async_setup_entry prefix interval first handle hass
             (complete_entry uid v cfg rest) in
  let cyc := async_update first (__init__ prefix uid cfg) in
  setup_outcome x = Failed (Uncaught e) /\
  lookup (hass_of x) uid = Some (mkObject (server_of cyc) None) /\
  (forall k, k <> uid -> lookup (hass_of x) k = lookup hass k) /\
  platform_events x
  = HaCore (EvLog DEBUG "Creating server instance for '%s' (%s)"
              [VStr (CONF_NAME cfg); VStr (CONF_HOST cfg)])
    :: List.map HaCore (trace_of cyc).
Proof.
  intros Hc. cbv zeta.
  unfold async_setup_entry, complete_entry, setup_outcome, hass_of,
    platform_events.
  cbn [entry_data entry_unique_id data_name data_host data_port].
  destruct cfg as [n h p]. cbn [CONF_NAME CONF_HOST CONF_PORT].
  destruct (async_update first (__init__ prefix uid (mkConfig n h p)))
    as [[r s1] tr] eqn:E.
  unfold outcome_of in Hc. cbn in Hc. subst r.
  cbn [fst snd server_of trace_of].
  split; [reflexivity|]. split; [apply lookup_set_same|].
  split; [intros k Hk; now apply lookup_set_other|].
  reflexivity.
Qed.

(** X16.  Setting up an entry whose host is a valid SRV record always
    fails with the NameError of the SRV rewrite: the server is left
    registered, offline, with host and port of the record, and no timer is
    armed and no platform set up. *)
Theorem setup_of_srv_host_fails (prefix : string) (interval : Z)
    (first : cycle) (handle : nat) (hass : Hass) (uid : string) (v : Z)
    (cfg : ConfigType) (rest : list (string * value)) (rec : srv_record) :
  srv_answer first = Returns (Some rec) ->
  let x := async_setup_entry prefix interval first handle hass
             (complete_entry uid v cfg rest) in
  setup_outcome x
  = Failed (Uncaught (mkExn NameError "name 'MCStatus' is not defined")) /\
  (exists s, lookup (hass_of x) uid = Some (mkObject s None) /\
             online s = false /\ host s = srv_host rec /\
             port s = srv_port rec) /\
  Forall (fun ev => match ev with
                    | HaTrackInterval _ _ | HaForwardSetup _ => False
                    | _ => True
                    end) (platform_events x).
Proof.
  intros H. destruct first as [sa pa sta]; simpl in H; subst sa.
  destruct cfg as [n h p].
  cbv zeta.
  unfold async_setup_entry, complete_entry, setup_outcome, hass_of,
    platform_events.
  cbn [entry_data entry_unique_id data_name data_host data_port
       CONF_NAME CONF_HOST CONF_PORT].
  unfold __init__. run_method. cbn [List.map fst snd].
  split; [reflexivity|]. split.
  - eexists. split; [apply lookup_set_same|]. repeat split.
  - repeat constructor.
Qed.

(** X17.  Setup of an entry lacking the name, host or port raises the
    KeyError of the first missing key; the dict of the domain exists
    afterwards, no server is registered, and nothing but the creation log
    (when name and host are there) has happened. *)
Theorem setup_missing_key (prefix : string) (interval : Z) (first : cycle)
    (handle : nat) (hass : Hass) (entry : ConfigEntry) (err : error) :
  to_config (entry_data entry) = Failed err ->
  let x := async_setup_entry prefix interval first handle hass entry in
  setup_outcome x = Failed err /\
  (forall k, lookup (hass_of x) k = lookup hass k) /\
  domain_data (hass_of x) <> None /\
  Forall (fun ev => match ev with
                    | HaCore (EvLog DEBUG _ _) => True
                    | _ => False
                    end) (platform_events x).
Proof.
  unfold to_config, async_setup_entry, setup_outcome, hass_of,
    platform_events, lookup.
  destruct (data_name (entry_data entry)) as [n|];
    [destruct (data_host (entry_data entry)) as [h|];
     [destruct (data_port (entry_data entry)) as [p|]|]|];
    intros H; try discriminate H; injection H as <-; cbn;
    (split; [reflexivity|]);
    (split; [intros k; now destruct (domain_data hass)|]);
    (split; [discriminate|]); repeat constructor.
Qed.

(** X18.  Unloading an entry that is not registered raises KeyError (of
    the domain when its dict is missing, of the unique id otherwise),
    before any platform is unloaded and without changing anything. *)
Theorem unload_unknown_entry (hass : Hass) (entry : ConfigEntry) :
  lookup hass (entry_unique_id entry) = None ->
  async_unload_entry hass entry
  = (Failed (match domain_data hass with
             | None => KeyError_domain
             | Some _ => KeyError_unique_id (entry_unique_id entry)
             end), hass, []).
Proof.
  unfold lookup, async_unload_entry.
  destruct (domain_data hass) as [d|]; [|reflexivity].
  intros ->. reflexivity.
Qed.

(** X19.  Unloading after a successful setup returns True, unloads the
    two platforms, cancels the very timer that setup armed, removes the
    server and leaves every other entry as it was before setup; a second
    unload raises KeyError. *)
Theorem setup_then_unload (prefix : string) (interval : Z)
    (first : cycle) (handle : nat) (hass : Hass) (uid : string) (v : Z)
    (cfg : ConfigType) (rest : list (string * value)) :
  outcome_of (async_update first (__init__ prefix uid cfg)) = Returns tt ->
  let entry := complete_entry uid v cfg rest in
  let x := async_setup_entry prefix interval first handle hass entry in
  let y := async_unload_entry (hass_of x) entry in
  setup_outcome y = Done true /\
  (forall k, k <> uid -> lookup (hass_of y) k = lookup hass k) /\
  lookup (hass_of y) uid = None /\
  platform_events y
  = [HaForwardUnload "binary_sensor"; HaForwardUnload "sensor";
     HaCancel handle] /\
  setup_outcome (async_unload_entry (hass_of y) entry)
  = Failed (KeyError_unique_id uid).
Proof.
  intros Hc. cbv zeta.
  unfold async_setup_entry, complete_entry, setup_outcome, hass_of,
    platform_events.
  cbn [entry_data entry_unique_id data_name data_host data_port].
  destruct cfg as [n h p]. cbn [CONF_NAME CONF_HOST CONF_PORT].
  destruct (async_update first (__init__ prefix uid (mkConfig n h p)))
    as [[r s1] tr] eqn:E.
  unfold outcome_of in Hc. cbn in Hc. subst r.
  cbn [start_periodic_update fst snd].
  unfold async_unload_entry.
  cbn [domain_data entry_unique_id].
  rewrite registry_set_same.
  cbn [stop_periodic_update _stop_periodic_update fst snd PLATFORMS
       List.map app domain_data].
  rewrite registry_pop_same.
  split; [reflexivity|]. split.
  - intros k Hk. unfold lookup, registry_pop, registry_set; cbn.
    apply String.eqb_neq in Hk. rewrite Hk.
    now destruct (domain_data hass).
  - split.
    + unfold lookup, registry_pop; cbn. now rewrite String.eqb_refl.
    + split; reflexivity.
Qed.

(** X20.  Unloading after a setup whose first update raised unloads the
    two platforms and then raises TypeError, because there is no timer
    handle to call; the server stays registered. *)
Theorem unload_after_failed_setup (prefix : string) (interval : Z)
    (first : cycle) (handle : nat) (hass : Hass) (uid : string) (v : Z)
    (cfg : ConfigType) (rest : list (string * value)) (e : exn) :
  outcome_of (async_update first (__init__ prefix uid cfg)) = Raises e ->
  let entry := complete_entry uid v cfg rest in
  let x := async_setup_entry prefix interval first handle hass entry in
  async_unload_entry (hass_of x) entry
  = (Failed TypeError_NoneType_not_callable, hass_of x,
     [HaForwardUnload "binary_sensor"; HaForwardUnload "sensor"]).
Proof.
  intros Hc. cbv zeta.
  unfold async_setup_entry, complete_entry, hass_of.
  cbn [entry_data entry_unique_id data_name data_host data_port].
  destruct cfg as [n h p]. cbn [CONF_NAME CONF_HOST CONF_PORT].
  destruct (async_update first (__init__ prefix uid (mkConfig n h p)))
    as [[r s1] tr] eqn:E.
  unfold outcome_of in Hc. cbn in Hc. subst r.
  cbn [fst snd].
  unfold async_unload_entry.
  cbn [domain_data entry_unique_id].
  rewrite registry_set_same.
  reflexivity.
Qed.

Lemma setup_registers_and_starts_witness :
  outcome_of (async_update cycle_up example_server) = Returns tt /\
  setup_outcome example_setup = Done true /\
  lookup (hass_of example_setup) "uid-1"
  = Some (mkObject (server_of (async_update cycle_up example_server))
            (Some 7%nat)).
Proof.
  split; [reflexivity|].
  destruct (setup_registers_and_starts "signal_minecraft_bedrock" 60
              cycle_up 7 empty_hass "uid-1" 2 example_config [] eq_refl)
    as (H1 & H2 & _).
  split; [exact H1|exact H2].
Defined.

Lemma setup_failure_leaves_server_registered_witness :
  outcome_of (async_update cycle_malformed example_server)
  = Raises malformed_reply /\
  lookup
    (hass_of (async_setup_entry "signal_minecraft_bedrock" 60
                cycle_malformed 7 empty_hass
                (complete_entry "uid-1" 2 example_config [])))
    "uid-1"
  = Some (mkObject (server_of (async_update cycle_malformed example_server))
            None).
Proof.
  split; [reflexivity|].
  exact (proj1 (proj2 (setup_failure_leaves_server_registered
                         "signal_minecraft_bedrock" 60 cycle_malformed 7
                         empty_hass "uid-1" 2 example_config []
                         malformed_reply eq_refl))).
Defined.

Lemma setup_of_srv_host_fails_witness :
  srv_answer cycle_srv_found
  = Returns (Some (mkSrv "play.example.org" 19133)) /\
  setup_outcome example_failed_setup
  = Failed (Uncaught (mkExn NameError "name 'MCStatus' is not defined")).
Proof.
  split; [reflexivity|].
  exact (proj1 (setup_of_srv_host_fails "signal_minecraft_bedrock" 60
                  cycle_srv_found 7 empty_hass "uid-1" 2 example_config []
                  _ eq_refl)).
Defined.

Lemma setup_missing_key_witness :
  to_config (entry_data example_entry_no_port)
  = Failed (KeyError_conf KEY_PORT) /\
  setup_outcome (async_setup_entry "signal_minecraft_bedrock" 60 cycle_up 7
                   empty_hass example_entry_no_port)
  = Failed (KeyError_conf KEY_PORT).
Proof.
  split; [reflexivity|].
  exact (proj1 (setup_missing_key "signal_minecraft_bedrock" 60 cycle_up 7
                  empty_hass example_entry_no_port _ eq_refl)).
Defined.

Lemma unload_unknown_entry_witness :
  lookup empty_hass (entry_unique_id example_entry) = None /\
  async_unload_entry empty_hass example_entry
  = (Failed KeyError_domain, empty_hass, []).
Proof.
  split; [reflexivity|].
  exact (unload_unknown_entry empty_hass example_entry eq_refl).
Defined.

Lemma setup_then_unload_witness :
  outcome_of (async_update cycle_up example_server) = Returns tt /\
  platform_events
    (async_unload_entry (hass_of example_setup)
       (complete_entry "uid-1" 2 example_config []))
  = [HaForwardUnload "binary_sensor"; HaForwardUnload "sensor"; HaCancel 7].
Proof.
  split; [reflexivity|].
  exact (proj1 (proj2 (proj2 (proj2
           (setup_then_unload "signal_minecraft_bedrock" 60 cycle_up 7
              empty_hass "uid-1" 2 example_config [] eq_refl))))).
Defined.

Lemma unload_after_failed_setup_witness :
  outcome_of (async_update cycle_srv_found example_server)
  = Raises (mkExn NameError "name 'MCStatus' is not defined") /\
  setup_outcome
    (async_unload_entry (hass_of example_failed_setup)
       (complete_entry "uid-1" 2 example_config []))
  = Failed TypeError_NoneType_not_callable.
Proof.
  split; [reflexivity|].
  exact (f_equal setup_outcome
           (unload_after_failed_setup "signal_minecraft_bedrock" 60
              cycle_srv_found 7 empty_hass "uid-1" 2 example_config [] _
              eq_refl)).
Defined.

(** ** Further properties: entities *)

(** X21.  Two entities of the same server with different type names
    have different unique ids and different names. *)
Theorem entity_ids_distinct (DOMAIN MANUFACTURER : string) (server : t)
    (type1 icon1 class1 type2 icon2 class2 : string) :
  type1 <> type2 ->
  _unique_id (entity_init DOMAIN MANUFACTURER server type1 icon1 class1)
  <> _unique_id (entity_init DOMAIN MANUFACTURER server type2 icon2 class2)
  /\
  _name (entity_init DOMAIN MANUFACTURER server type1 icon1 class1)
  <> _name (entity_init DOMAIN MANUFACTURER server type2 icon2 class2).
Proof.
  intros Hne. cbn [entity_init _unique_id _name]. split; intros H;
    apply prefix_injective in H; cbn in H; injection H as H; auto.
Qed.

Lemma entity_ids_distinct_witness :
  "Latency Time" <> "Players Online" /\
  _unique_id (entity_init "minecraft_bedrock" "Mojang AB" example_server
                "Latency Time" "mdi:signal" "")
  <> _unique_id (entity_init "minecraft_bedrock" "Mojang AB" example_server
                   "Players Online" "mdi:account-multiple" "").
Proof.
  assert (H : "Latency Time" <> "Players Online") by discriminate.
  split; [exact H|].
  exact (proj1 (entity_ids_distinct "minecraft_bedrock" "Mojang AB"
                  example_server "Latency Time" "mdi:signal" ""
                  "Players Online" "mdi:account-multiple" "" H)).
Defined.


